(** * DNCommerce: the sale-registration route [POST /vendas] of src/server.js

    Shallow embedding of the Express/Sequelize handler.  The SQLite database
    is an explicit store threaded through the handler; every [await] on a
    model operation becomes one store transformer, applied immediately, in
    the order of the source (there is no transaction in the source, so
    nothing is ever rolled back).

    Numbers: [preco] and [total] are FLOAT columns and the handler computes
    with JavaScript doubles.  They are modelled as integers (an amount in
    cents), so the accumulation [totalVenda += produto.preco * item.quantidade]
    is exact here.  The source agrees with it when the amounts are whole
    numbers (integers below 2^53 are exact doubles); with decimal prices the
    source rounds each step.  Only the concrete scenarios, whose prices are
    whole numbers, depend on a total other than 0.  Quantities and stocks
    are INTEGER columns, modelled as [Z].  Rows are kept in insertion order;
    the queries of the source have no ORDER BY, so only the concrete
    scenarios depend on that order. *)

From Stdlib Require Import ZArith List String Bool Lia.
Import ListNotations.
Open Scope Z_scope.

(** ** Data model (section 2 of server.js) *)

(** [Cliente]: nome, email (unique), cpf; the id is Sequelize's autoincrement key. *)
Record Cliente := mkCliente {
  cliente_id : Z;
  cliente_nome : string;
  email : string;
  cpf : string
}.

(** [Produto]: nome, descricao, preco (FLOAT), estoque (INTEGER, default 0). *)
Record Produto := mkProduto {
  produto_id : Z;
  produto_nome : string;
  descricao : string;
  preco : Z;
  estoque : Z
}.

(** [Venda]: data_venda (omitted: a timestamp), total (FLOAT, default 0.0)
    and the foreign key [ClienteId] added by [Venda.belongsTo(Cliente)];
    it is nullable, hence [option Z]. *)
Record Venda := mkVenda {
  venda_id : Z;
  ClienteId : option Z;
  total : Z
}.

(** [ItemVenda]: the through table of [Venda.belongsToMany(Produto)], keyed
    by the pair ([VendaId], [ProdutoId]), with quantidade and preco_unitario. *)
Record ItemVenda := mkItemVenda {
  VendaId : Z;
  ProdutoId : Z;
  quantidade : Z;
  preco_unitario : Z
}.

(** The database: the four tables and the autoincrement counter of [Vendas]. *)
Record Store := mkStore {
  clientes : list Cliente;
  produtos : list Produto;
  vendas : list Venda;
  itens_venda : list ItemVenda;
  next_venda_id : Z
}.

(** The request body [{ ClienteId, itens: [{ ProdutoId, quantidade }] }]. *)
Record ItemReq := mkItemReq {
  item_ProdutoId : Z;
  item_quantidade : Z
}.

Record VendaReq := mkVendaReq {
  req_ClienteId : option Z;
  req_itens : list ItemReq
}.

(** The HTTP response: a status and a JSON body, which is the composed sale
    ([vendaCompleta], with its through rows), [null], or [{ error: msg }]. *)
Inductive Body :=
| BVenda (v : Venda) (linhas : list ItemVenda)
| BNull
| BError (error : string).

Record Response := mkResponse {
  status : Z;
  body : Body
}.

(** ** Model operations used by the handler *)

(** [Produto.findByPk(id)]. *)
Fixpoint produto_findByPk (ps : list Produto) (pid : Z) : option Produto :=
  match ps with
  | [] => None
  | p :: ps' => if produto_id p =? pid then Some p else produto_findByPk ps' pid
  end.

Definition set_estoque (p : Produto) (n : Z) : Produto :=
  mkProduto (produto_id p) (produto_nome p) (descricao p) (preco p) n.

(** [produto.update({ estoque: n })]: an UPDATE of the row with that key. *)
Definition produto_update_estoque (st : Store) (pid n : Z) : Store :=
  mkStore (clientes st)
    (map (fun q => if produto_id q =? pid then set_estoque q n else q) (produtos st))
    (vendas st) (itens_venda st) (next_venda_id st).

(** [Venda.create({ ClienteId })]: the INSERT is checked against the foreign
    key [ClienteId REFERENCES Clientes(id)] that [Venda.belongsTo(Cliente)]
    declares (Sequelize turns SQLite's foreign keys on); a null key passes.
    The new row has the default total 0. [None] is the rejected INSERT. *)
Definition fk_cliente_ok (st : Store) (cid : option Z) : bool :=
  match cid with
  | None => true
  | Some c => existsb (fun cl => cliente_id cl =? c) (clientes st)
  end.

Definition venda_create (st : Store) (cid : option Z) : option (Venda * Store) :=
  if fk_cliente_ok st cid then
    let v := mkVenda (next_venda_id st) cid 0 in
    Some (v, mkStore (clientes st) (produtos st) (vendas st ++ [v])
                     (itens_venda st) (next_venda_id st + 1))
  else None.

(** [venda.addProduto(produto, { through: { quantidade, preco_unitario } })]:
    Sequelize's [BelongsToMany.add] first reads the through rows of this
    (venda, produto) pair; a product not yet associated gets a new row, an
    already associated one has its through attributes overwritten. *)
Definition venda_addProduto (st : Store) (vid : Z) (p : Produto) (q pu : Z) : Store :=
  let row := mkItemVenda vid (produto_id p) q pu in
  let same r := (VendaId r =? vid) && (ProdutoId r =? produto_id p) in
  let its := itens_venda st in
  let its' := if existsb same its
              then map (fun r => if same r then row else r) its
              else its ++ [row] in
  mkStore (clientes st) (produtos st) (vendas st) its' (next_venda_id st).

(** [venda.update({ total })]. *)
Definition venda_update_total (st : Store) (vid t : Z) : Store :=
  mkStore (clientes st) (produtos st)
    (map (fun v => if venda_id v =? vid then mkVenda (venda_id v) (ClienteId v) t else v)
         (vendas st))
    (itens_venda st) (next_venda_id st).

Fixpoint venda_find (vs : list Venda) (vid : Z) : option Venda :=
  match vs with
  | [] => None
  | v :: vs' => if venda_id v =? vid then Some v else venda_find vs' vid
  end.

(** [Venda.findByPk(id, { include: [Cliente, Produto through ItemVenda] })]:
    the sale with its through rows. *)
Definition venda_findByPk_completa (st : Store) (vid : Z) : Body :=
  match venda_find (vendas st) vid with
  | Some v => BVenda v (filter (fun r => VendaId r =? vid) (itens_venda st))
  | None => BNull
  end.

(** ** The handler *)

(** One pass of the [for (const item of itens)] loop either continues with
    the store and the running [totalVenda] or leaves the handler through
    [return res.status(...).json(...)]. *)
Inductive Passo :=
| Continua (st : Store) (totalVenda : Z)
| Retorna (r : Response) (st : Store).

Definition msg_nao_encontrado : string := "Produto não encontrado".
Definition msg_estoque (nome : string) : string :=
  String.append "Estoque insuficiente para " nome.
Definition msg_erro : string := "Erro ao processar venda".

Fixpoint processa_itens (vid : Z) (itens : list ItemReq) (st : Store) (totalVenda : Z)
  : Passo :=
  match itens with
  | [] => Continua st totalVenda
  | item :: rest =>
      match produto_findByPk (produtos st) (item_ProdutoId item) with
      | None => Retorna (mkResponse 404 (BError msg_nao_encontrado)) st
      | Some produto =>
          if estoque produto <? item_quantidade item then
            Retorna (mkResponse 400 (BError (msg_estoque (produto_nome produto)))) st
          else
            let st1 := venda_addProduto st vid produto (item_quantidade item) (preco produto) in
            let st2 := produto_update_estoque st1 (produto_id produto)
                         (estoque produto - item_quantidade item) in
            processa_itens vid rest st2 (totalVenda + preco produto * item_quantidade item)
      end
  end.

(** [app.post('/vendas', ...)]; a failing INSERT lands in the [catch] (500). *)
Definition post_vendas (st : Store) (req : VendaReq) : Response * Store :=
  match venda_create st (req_ClienteId req) with
  | None => (mkResponse 500 (BError msg_erro), st)
  | Some (venda, st0) =>
      match processa_itens (venda_id venda) (req_itens req) st0 0 with
      | Retorna r st' => (r, st')
      | Continua st' totalVenda =>
          let st'' := venda_update_total st' (venda_id venda) totalVenda in
          (mkResponse 201 (venda_findByPk_completa st'' (venda_id venda)), st'')
      end
  end.

(** A sequence of requests, each run on the store the previous one left. *)
Fixpoint post_vendas_seq (st : Store) (reqs : list VendaReq) : Store :=
  match reqs with
  | [] => st
  | r :: rs => post_vendas_seq (snd (post_vendas st r)) rs
  end.

(** ** The other routes of server.js *)

(** Sequelize errors the CRUD routes turn into [400 { error: error.message }]:
    the fields a [allowNull: false] validation found null (in declaration
    order), or a UNIQUE / PRIMARY KEY violation of the INSERT.  The text of
    [error.message] is Sequelize's rendering of these and is not modelled. *)
Inductive ErroSequelize :=
| NotNullViolation (campos : list string)
| UniqueConstraint.

Inductive CrudBody :=
| BProduto (p : Produto)
| BCliente (c : Cliente)
| BProdutos (ps : list Produto)
| BClientes (cs : list Cliente)
| BVendas (vs : list (Venda * list ItemVenda))
| BMensagem (message : string)
| BErro (e : ErroSequelize).

Record CrudResponse := mkCrudResponse {
  crud_status : Z;
  crud_body : CrudBody
}.

Definition valor_ou {A : Type} (d : A) (o : option A) : A :=
  match o with Some x => x | None => d end.

(** The key SQLite's [INTEGER PRIMARY KEY AUTOINCREMENT] hands out: one more
    than the largest key ever used; no route deletes a row, so that is the
    largest key present (0 for an empty table). *)
Definition proximo_id (ids : list Z) : Z := fold_right Z.max 0 ids + 1.

(** The body of [POST /produtos]; [None] is an absent field.  An explicit
    JSON [null] is not represented (Sequelize applies a default value only
    to an absent field, so a null [estoque] would be stored as NULL). *)
Record ProdutoReq := mkProdutoReq {
  preq_id : option Z;
  preq_nome : option string;
  preq_descricao : option string;
  preq_preco : option Z;
  preq_estoque : option Z
}.

Definition nulos_produto (b : ProdutoReq) : list string :=
  (match preq_nome b with None => ["nome"%string] | Some _ => [] end) ++
  (match preq_preco b with None => ["preco"%string] | Some _ => [] end).

(** [Produto.create(req.body)]: [nome] and [preco] are [allowNull: false];
    [estoque] defaults to 0; an absent [descricao] is stored as null, which
    this model writes as the empty string (no route reads it); the key is
    the one given in the body or the autoincrement one, and an existing key
    violates the PRIMARY KEY. *)
Definition produto_create (st : Store) (b : ProdutoReq) : ErroSequelize + (Produto * Store) :=
  match preq_nome b, preq_preco b with
  | Some nome, Some preco =>
      let id := valor_ou (proximo_id (map produto_id (produtos st))) (preq_id b) in
      if existsb (fun p => produto_id p =? id) (produtos st) then inl UniqueConstraint
      else
        let p := mkProduto id nome (valor_ou ""%string (preq_descricao b)) preco
                   (valor_ou 0 (preq_estoque b)) in
        inr (p, mkStore (clientes st) (produtos st ++ [p]) (vendas st)
                        (itens_venda st) (next_venda_id st))
  | _, _ => inl (NotNullViolation (nulos_produto b))
  end.

(** [app.post('/produtos', ...)]. *)
Definition post_produtos (st : Store) (b : ProdutoReq) : CrudResponse * Store :=
  match produto_create st b with
  | inl e => (mkCrudResponse 400 (BErro e), st)
  | inr (p, st') => (mkCrudResponse 201 (BProduto p), st')
  end.

(** [app.get('/produtos', ...)]: [Produto.findAll()]. *)
Definition get_produtos (st : Store) : CrudResponse * Store :=
  (mkCrudResponse 200 (BProdutos (produtos st)), st).

(** The body of [POST /clientes]. *)
Record ClienteReq := mkClienteReq {
  creq_id : option Z;
  creq_nome : option string;
  creq_email : option string;
  creq_cpf : option string
}.

Definition nulos_cliente (b : ClienteReq) : list string :=
  (match creq_nome b with None => ["nome"%string] | Some _ => [] end) ++
  (match creq_email b with None => ["email"%string] | Some _ => [] end) ++
  (match creq_cpf b with None => ["cpf"%string] | Some _ => [] end).

(** [Cliente.create(req.body)]: the three fields are [allowNull: false];
    the INSERT violates a constraint when the key or the email ([unique:
    true]) is already taken. *)
Definition cliente_create (st : Store) (b : ClienteReq) : ErroSequelize + (Cliente * Store) :=
  match creq_nome b, creq_email b, creq_cpf b with
  | Some nome, Some em, Some c =>
      let id := valor_ou (proximo_id (map cliente_id (clientes st))) (creq_id b) in
      if existsb (fun cl => cliente_id cl =? id) (clientes st)
         || existsb (fun cl => String.eqb (email cl) em) (clientes st)
      then inl UniqueConstraint
      else
        let cl := mkCliente id nome em c in
        inr (cl, mkStore (clientes st ++ [cl]) (produtos st) (vendas st)
                         (itens_venda st) (next_venda_id st))
  | _, _, _ => inl (NotNullViolation (nulos_cliente b))
  end.

(** [app.post('/clientes', ...)]. *)
Definition post_clientes (st : Store) (b : ClienteReq) : CrudResponse * Store :=
  match cliente_create st b with
  | inl e => (mkCrudResponse 400 (BErro e), st)
  | inr (cl, st') => (mkCrudResponse 201 (BCliente cl), st')
  end.

(** [app.get('/clientes', ...)]: [Cliente.findAll()]. *)
Definition get_clientes (st : Store) : CrudResponse * Store :=
  (mkCrudResponse 200 (BClientes (clientes st)), st).

(** [app.get('/vendas', ...)]: every sale with its through rows. *)
Definition get_vendas (st : Store) : CrudResponse * Store :=
  (mkCrudResponse 200
     (BVendas (map (fun v => (v, filter (fun r => VendaId r =? venda_id v) (itens_venda st)))
                   (vendas st))), st).

(** [app.get('/', ...)]. *)
Definition get_raiz (st : Store) : CrudResponse * Store :=
  (mkCrudResponse 200 (BMensagem "API DNCommerce rodando! 🚀"), st).

(** The Express app: one request, routed by method and path. *)
Inductive Requisicao :=
| GetRaiz
| PostProdutos (b : ProdutoReq)
| GetProdutos
| PostClientes (b : ClienteReq)
| GetClientes
| PostVendas (b : VendaReq)
| GetVendas.

Inductive Resposta :=
| RespostaCrud (r : CrudResponse)
| RespostaVenda (r : Response).

Definition app (st : Store) (req : Requisicao) : Resposta * Store :=
  match req with
  | GetRaiz => let '(r, st') := get_raiz st in (RespostaCrud r, st')
  | PostProdutos b => let '(r, st') := post_produtos st b in (RespostaCrud r, st')
  | GetProdutos => let '(r, st') := get_produtos st in (RespostaCrud r, st')
  | PostClientes b => let '(r, st') := post_clientes st b in (RespostaCrud r, st')
  | GetClientes => let '(r, st') := get_clientes st in (RespostaCrud r, st')
  | PostVendas b => let '(r, st') := post_vendas st b in (RespostaVenda r, st')
  | GetVendas => let '(r, st') := get_vendas st in (RespostaCrud r, st')
  end.

(** Requests served one after the other. *)
Fixpoint app_seq (st : Store) (reqs : list Requisicao) : Store :=
  match reqs with
  | [] => st
  | r :: rs => app_seq (snd (app st r)) rs
  end.

(** ** Auxiliary notions *)

Definition estoques_nao_negativos (st : Store) : Prop :=
  Forall (fun p => 0 <= estoque p) (produtos st).

(** Sum of [quantidade * preco_unitario] over a list of through rows. *)
Definition soma_linhas (ls : list ItemVenda) : Z :=
  fold_left (fun acc r => acc + quantidade r * preco_unitario r) ls 0.

Definition estoque_de (st : Store) (pid : Z) : option Z :=
  option_map estoque (produto_findByPk (produtos st) pid).


(** Distinct keys in every table, distinct emails ([unique: true]). *)
Definition chaves_unicas (st : Store) : Prop :=
  NoDup (map produto_id (produtos st)) /\
  NoDup (map cliente_id (clientes st)) /\
  NoDup (map email (clientes st)).

(** The autoincrement counter of [Vendas] is above every sale key and every
    sale key a through row refers to; sale keys are distinct. *)
Definition contador_vendas_ok (st : Store) : Prop :=
  NoDup (map venda_id (vendas st)) /\
  Forall (fun v => venda_id v < next_venda_id st) (vendas st) /\
  Forall (fun l => VendaId l < next_venda_id st) (itens_venda st).

(** A request whose body, if it is a [POST /produtos], has no negative [estoque]. *)
Definition estoque_req_ok (r : Requisicao) : Prop :=
  match r with
  | PostProdutos b => forall n, preq_estoque b = Some n -> 0 <= n
  | _ => True
  end.

(** The store of the concrete scenarios: customer 1, P1 (10.00, stock 5),
    P2 (20.00, stock 2), no sales yet. *)
Definition st_ex : Store :=
  mkStore [mkCliente 1 "C1" "c1@example.com" "000"]
          [mkProduto 1 "P1" "" 1000 5; mkProduto 2 "P2" "" 2000 2]
          [] [] 1.

(** A successful sale of the scenarios, and requests for the other routes. *)
Definition req_ok : VendaReq := mkVendaReq (Some 1) [mkItemReq 1 2; mkItemReq 2 1].
Definition st_ok : Store := snd (post_vendas st_ex req_ok).
Definition req_produto : ProdutoReq := mkProdutoReq None (Some "P3"%string) None (Some 500) None.
Definition req_cliente : ClienteReq :=
  mkClienteReq None (Some "C2"%string) (Some "c2@example.com"%string) (Some "111"%string).

Example post_vendas_ex :
  fst (post_vendas st_ex (mkVendaReq (Some 1) [mkItemReq 1 2; mkItemReq 2 1]))
  = mkResponse 201 (BVenda (mkVenda 1 (Some 1) 4000)
                           [mkItemVenda 1 1 2 1000; mkItemVenda 1 2 1 2000]).
Proof. reflexivity. Qed.

(** ** Concrete scenarios *)

(** C1 (code_bug): the same product twice, [[{P1,1},{P1,2}]].  The loop adds
    both lines to [totalVenda] (30.00), but the second [addProduto] overwrites
    the through row of the pair (sale 1, P1), so the sale keeps one line of
    quantity 2 whose [quantidade * preco_unitario] sums to 20.00. *)
Theorem c1_total_duplicate_product :
  let '(r, st') := post_vendas st_ex (mkVendaReq (Some 1) [mkItemReq 1 1; mkItemReq 1 2]) in
  status r = 201 /\
  r = mkResponse 201 (BVenda (mkVenda 1 (Some 1) 3000) [mkItemVenda 1 1 2 1000]) /\
  venda_find (vendas st') 1 = Some (mkVenda 1 (Some 1) 3000) /\
  soma_linhas (filter (fun l => VendaId l =? 1) (itens_venda st')) = 2000.
Proof. vm_compute. repeat split. Qed.

(** C2: from P1 (10.00, stock 5) and P2 (20.00, stock 2), the sale
    [[{P1,2},{P2,1}]] of customer 1 answers 201 with a sale of total 40.00,
    leaves the stocks 3 and 1, and persists exactly two through rows, with
    unit prices 10.00 and 20.00. *)
Theorem c2_concrete_sale :
  let '(r, st') := post_vendas st_ex (mkVendaReq (Some 1) [mkItemReq 1 2; mkItemReq 2 1]) in
  status r = 201 /\
  (exists v ls, body r = BVenda v ls /\ total v = 4000) /\
  estoque_de st' 1 = Some 3 /\ estoque_de st' 2 = Some 1 /\
  filter (fun l => VendaId l =? 1) (itens_venda st')
    = [mkItemVenda 1 1 2 1000; mkItemVenda 1 2 1 2000] /\
  map preco_unitario (filter (fun l => VendaId l =? 1) (itens_venda st')) = [1000; 2000].
Proof.
  vm_compute. split; [reflexivity|]. split.
  - eexists; eexists; split; reflexivity.
  - repeat split.
Qed.


(** C6 (counterexample): asking 3 or 4 units of P2 (stock 2) gives the very
    same response, [{ error: "Estoque insuficiente para P2" }]: the payload
    names the product but reports neither the requested nor the available
    quantity. *)
Theorem c6_payload_without_quantities :
  fst (post_vendas st_ex (mkVendaReq (Some 1) [mkItemReq 2 3]))
  = mkResponse 400 (BError "Estoque insuficiente para P2") /\
  fst (post_vendas st_ex (mkVendaReq (Some 1) [mkItemReq 2 4]))
  = fst (post_vendas st_ex (mkVendaReq (Some 1) [mkItemReq 2 3])).
Proof. vm_compute. split; reflexivity. Qed.

(** C7 (counterexample): the missing products 98 and 99 give the very same
    response, so the payload does not name the missing id. *)
Theorem c7_payload_without_id :
  fst (post_vendas st_ex (mkVendaReq (Some 1) [mkItemReq 98 1]))
  = mkResponse 404 (BError msg_nao_encontrado) /\
  fst (post_vendas st_ex (mkVendaReq (Some 1) [mkItemReq 99 1]))
  = fst (post_vendas st_ex (mkVendaReq (Some 1) [mkItemReq 98 1])).
Proof. vm_compute. split; reflexivity. Qed.

(** C8 (code_bug): two requested items of the same product give one through
    row, not two. *)
Theorem c8_duplicate_items_one_row :
  let '(r, st') := post_vendas st_ex (mkVendaReq (Some 1) [mkItemReq 1 1; mkItemReq 1 2]) in
  status r = 201 /\
  filter (fun l => VendaId l =? 1) (itens_venda st') = [mkItemVenda 1 1 2 1000].
Proof. vm_compute. split; reflexivity. Qed.



(** A request failing at its second item: P1 is sold, P2 is short. *)
Definition req_falha : VendaReq := mkVendaReq (Some 1) [mkItemReq 1 1; mkItemReq 2 3].
Definition st_falha : Store := snd (post_vendas st_ex req_falha).

(** ** Lemmas on the model operations *)

Definition passo_store (p : Passo) : Store :=
  match p with Continua st _ => st | Retorna _ st => st end.




Lemma update_estoque_nonneg ps pid n :
  0 <= n -> Forall (fun p => 0 <= estoque p) ps ->
  Forall (fun p => 0 <= estoque p)
    (map (fun q => if produto_id q =? pid then set_estoque q n else q) ps).
Proof.
  intros Hn Hps; induction Hps as [|q ps Hq Hps IH]; simpl; constructor; [|exact IH].
  destruct (produto_id q =? pid); simpl; assumption.
Qed.

(** [for ... of] over a concatenation is the second loop run after the first. *)
Lemma processa_itens_app vid pre post st acc :
  processa_itens vid (pre ++ post) st acc
  = match processa_itens vid pre st acc with
    | Continua st' acc' => processa_itens vid post st' acc'
    | Retorna r st' => Retorna r st'
    end.
Proof.
  revert st acc; induction pre as [|it pre IH]; intros st acc; simpl; [reflexivity|].
  destruct (produto_findByPk (produtos st) (item_ProdutoId it)) as [p|]; [|reflexivity].
  destruct (estoque p <? item_quantidade it); [reflexivity|apply IH].
Qed.

(** The loop touches neither [Vendas], [Clientes] nor the id counter. *)
Lemma processa_itens_vendas vid items st acc :
  vendas (passo_store (processa_itens vid items st acc)) = vendas st /\
  next_venda_id (passo_store (processa_itens vid items st acc)) = next_venda_id st.
Proof.
  revert st acc; induction items as [|it items IH]; intros st acc; simpl; [auto|].
  destruct (produto_findByPk (produtos st) (item_ProdutoId it)) as [p|]; simpl; [|auto].
  destruct (estoque p <? item_quantidade it); simpl; [auto|].
  destruct (IH (produto_update_estoque
                  (venda_addProduto st vid p (item_quantidade it) (preco p))
                  (produto_id p) (estoque p - item_quantidade it))
               (acc + preco p * item_quantidade it)) as [H1 H2].
  rewrite H1, H2; simpl; auto.
Qed.


(** The stock check guards every decrement: non-negative stocks stay so. *)
Lemma processa_itens_nonneg vid items st acc :
  estoques_nao_negativos st ->
  estoques_nao_negativos (passo_store (processa_itens vid items st acc)).
Proof.
  revert st acc; induction items as [|it items IH]; intros st acc Hst; simpl; [exact Hst|].
  destruct (produto_findByPk (produtos st) (item_ProdutoId it)) as [p|]; simpl; [|exact Hst].
  destruct (estoque p <? item_quantidade it) eqn:Hlt; simpl; [exact Hst|].
  apply IH; unfold estoques_nao_negativos; simpl.
  apply update_estoque_nonneg; [apply Z.ltb_ge in Hlt; lia|exact Hst].
Qed.


Lemma post_vendas_nonneg st req :
  estoques_nao_negativos st -> estoques_nao_negativos (snd (post_vendas st req)).
Proof.
  intros Hst; unfold post_vendas, venda_create.
  destruct (fk_cliente_ok st (req_ClienteId req)); simpl; [|exact Hst].
  pose proof (processa_itens_nonneg (next_venda_id st) (req_itens req)
                (mkStore (clientes st) (produtos st)
                   (vendas st ++ [mkVenda (next_venda_id st) (req_ClienteId req) 0])
                   (itens_venda st) (next_venda_id st + 1)) 0 Hst) as H.
  destruct (processa_itens _ _ _ _); simpl in *; exact H.
Qed.









(** ** Claims *)





(** C5: from a store whose stocks are all non-negative, any sequence of
    [POST /vendas] calls keeps every stock non-negative. *)
Theorem c5_stock_nonneg reqs st :
  estoques_nao_negativos st -> estoques_nao_negativos (post_vendas_seq st reqs).
Proof.
  revert st; induction reqs as [|req reqs IH]; intros st Hst; simpl; [exact Hst|].
  apply IH, post_vendas_nonneg, Hst.
Qed.

Lemma c5_stock_nonneg_witness :
  estoques_nao_negativos
    (post_vendas_seq st_ex [mkVendaReq (Some 1) [mkItemReq 1 2; mkItemReq 2 1];
                            mkVendaReq (Some 1) [mkItemReq 2 1; mkItemReq 1 4]]).
Proof.
  apply c5_stock_nonneg.
  unfold estoques_nao_negativos; simpl; repeat constructor; simpl; lia.
Defined.

(** C6 (amended): if the sale row is created, items 1..k-1 pass and item k
    asks more than the stock of its product, [POST /vendas] answers 400 with
    [{ error: "Estoque insuficiente para " + nome }] (the product's name, no
    quantities), and the store is the one left by items 1..k-1: no through
    row and no stock change for item k. *)
Theorem c6_insufficient_stock_400 st req v st0 pre it post st1 acc p :
  venda_create st (req_ClienteId req) = Some (v, st0) ->
  req_itens req = pre ++ it :: post ->
  processa_itens (venda_id v) pre st0 0 = Continua st1 acc ->
  produto_findByPk (produtos st1) (item_ProdutoId it) = Some p ->
  estoque p < item_quantidade it ->
  post_vendas st req = (mkResponse 400 (BError (msg_estoque (produto_nome p))), st1).
Proof.
  intros Hc E Hpre Hp Hlt; unfold post_vendas.
  rewrite Hc, E, processa_itens_app, Hpre; simpl; rewrite Hp.
  apply Z.ltb_lt in Hlt; rewrite Hlt; reflexivity.
Qed.

Lemma c6_insufficient_stock_400_witness :
  post_vendas st_ex req_falha = (mkResponse 400 (BError (msg_estoque "P2")), st_falha).
Proof.
  apply (c6_insufficient_stock_400 st_ex req_falha (mkVenda 1 (Some 1) 0)
           (mkStore (clientes st_ex) (produtos st_ex) [mkVenda 1 (Some 1) 0] [] 2)
           [mkItemReq 1 1] (mkItemReq 2 3) [] st_falha 1000 (mkProduto 2 "P2" "" 2000 2));
    try (vm_compute; reflexivity); simpl; lia.
Defined.

(** A request whose second item names the missing product 99. *)
Definition req_falta : VendaReq := mkVendaReq (Some 1) [mkItemReq 1 1; mkItemReq 99 1].
Definition st_falta : Store := snd (post_vendas st_ex req_falta).

(** C7 (amended): if the sale row is created, items 1..k-1 pass and item k
    names a product id with no row, [POST /vendas] answers 404 with the fixed
    payload [{ error: "Produto não encontrado" }], which does not depend on
    the id, and the store is the one left by items 1..k-1. *)
Theorem c7_missing_product_404 st req v st0 pre it post st1 acc :
  venda_create st (req_ClienteId req) = Some (v, st0) ->
  req_itens req = pre ++ it :: post ->
  processa_itens (venda_id v) pre st0 0 = Continua st1 acc ->
  produto_findByPk (produtos st1) (item_ProdutoId it) = None ->
  post_vendas st req = (mkResponse 404 (BError msg_nao_encontrado), st1).
Proof.
  intros Hc E Hpre Hp; unfold post_vendas.
  rewrite Hc, E, processa_itens_app, Hpre; simpl; rewrite Hp; reflexivity.
Qed.

Lemma c7_missing_product_404_witness :
  post_vendas st_ex req_falta = (mkResponse 404 (BError msg_nao_encontrado), st_falta).
Proof.
  apply (c7_missing_product_404 st_ex req_falta (mkVenda 1 (Some 1) 0)
           (mkStore (clientes st_ex) (produtos st_ex) [mkVenda 1 (Some 1) 0] [] 2)
           [mkItemReq 1 1] (mkItemReq 99 1) [] st_falta 1000);
    vm_compute; reflexivity.
Defined.








(** ** Further properties of the routes *)




Lemma addProduto_outra_venda st vid p q pu w :
  w <> vid ->
  filter (fun l => VendaId l =? w) (itens_venda (venda_addProduto st vid p q pu))
  = filter (fun l => VendaId l =? w) (itens_venda st).
Proof.
  intros Hne; assert (Hvw : (vid =? w) = false) by (apply Z.eqb_neq; congruence).
  unfold venda_addProduto; simpl.
  destruct (existsb _ _).
  - induction (itens_venda st) as [|l its IH]; simpl; [reflexivity|].
    destruct ((VendaId l =? vid) && (ProdutoId l =? produto_id p)) eqn:E.
    + apply andb_true_iff in E as [E _]; apply Z.eqb_eq in E.
      simpl; rewrite Hvw, E, Hvw; exact IH.
    + destruct (VendaId l =? w); [f_equal|]; exact IH.
  - rewrite filter_app; simpl; rewrite Hvw, app_nil_r; reflexivity.
Qed.

Lemma processa_itens_outras_vendas vid items st acc w :
  w <> vid ->
  filter (fun l => VendaId l =? w) (itens_venda (passo_store (processa_itens vid items st acc)))
  = filter (fun l => VendaId l =? w) (itens_venda st) /\
  clientes (passo_store (processa_itens vid items st acc)) = clientes st.
Proof.
  intros Hne; revert st acc; induction items as [|it items IH]; intros st acc; simpl; [auto|].
  destruct (produto_findByPk (produtos st) (item_ProdutoId it)) as [p|]; simpl; [|auto].
  destruct (estoque p <? item_quantidade it); simpl; [auto|].
  destruct (IH (produto_update_estoque
                  (venda_addProduto st vid p (item_quantidade it) (preco p))
                  (produto_id p) (estoque p - item_quantidade it))
               (acc + preco p * item_quantidade it)) as [H1 H2].
  rewrite H1, H2; simpl; split; [|reflexivity].
  exact (addProduto_outra_venda st vid p _ _ w Hne).
Qed.

Lemma venda_find_snoc vs v w :
  venda_id v <> w -> venda_find (vs ++ [v]) w = venda_find vs w.
Proof.
  intros Hne; induction vs as [|x vs IH]; simpl.
  - apply Z.eqb_neq in Hne; rewrite Hne; reflexivity.
  - destruct (venda_id x =? w); [reflexivity|exact IH].
Qed.

Lemma venda_find_update_other vs n t w :
  w <> n ->
  venda_find (map (fun v => if venda_id v =? n then mkVenda (venda_id v) (ClienteId v) t else v) vs) w
  = venda_find vs w.
Proof.
  intros Hne; induction vs as [|x vs IH]; simpl; [reflexivity|].
  destruct (venda_id x =? n) eqn:En; simpl.
  - apply Z.eqb_eq in En; assert (Hw : (venda_id x =? w) = false) by (apply Z.eqb_neq; congruence).
    rewrite Hw; exact IH.
  - destruct (venda_id x =? w); [reflexivity|exact IH].
Qed.

(** X4: [POST /vendas], whatever its outcome, changes neither the row nor the
    line items of any sale other than the one it creates, nor the customers:
    the line items and totals of a recorded sale are never touched again. *)
Theorem x_post_vendas_outras_vendas st req r st' w :
  post_vendas st req = (r, st') -> w <> next_venda_id st ->
  venda_find (vendas st') w = venda_find (vendas st) w /\
  filter (fun l => VendaId l =? w) (itens_venda st')
    = filter (fun l => VendaId l =? w) (itens_venda st) /\
  clientes st' = clientes st.
Proof.
  unfold post_vendas, venda_create; intros H Hne.
  destruct (fk_cliente_ok st (req_ClienteId req)); [|inversion H; subst; auto].
  cbn [venda_id] in H.
  set (st0 := mkStore (clientes st) (produtos st)
                (vendas st ++ [mkVenda (next_venda_id st) (req_ClienteId req) 0])
                (itens_venda st) (next_venda_id st + 1)) in H.
  pose proof (processa_itens_outras_vendas (next_venda_id st) (req_itens req) st0 0 w Hne)
    as [Hf Hc].
  pose proof (processa_itens_vendas (next_venda_id st) (req_itens req) st0 0) as [Hv _].
  destruct (processa_itens (next_venda_id st) (req_itens req) st0 0) as [st1 acc|r1 st1];
    simpl in Hf, Hc, Hv; inversion H; subst; simpl.
  - rewrite venda_find_update_other by exact Hne; rewrite Hv.
    split; [apply venda_find_snoc; simpl; congruence|auto].
  - rewrite Hv; split; [apply venda_find_snoc; simpl; congruence|auto].
Qed.

Lemma existsb_produto_id ps i :
  existsb (fun p => produto_id p =? i) ps = false <-> ~ In i (map produto_id ps).
Proof.
  split.
  - intros H Hin; apply in_map_iff in Hin as (p & Ep & Hp).
    assert (existsb (fun p => produto_id p =? i) ps = true)
      by (apply existsb_exists; exists p; split; [exact Hp|apply Z.eqb_eq; exact Ep]).
    congruence.
  - intros Hn; destruct (existsb _ ps) eqn:E; [|reflexivity].
    apply existsb_exists in E as (p & Hp & Ep); apply Z.eqb_eq in Ep.
    exfalso; apply Hn, in_map_iff; exists p; auto.
Qed.

(** X10: a customer created by [POST /clientes] is stored, and a following
    [POST /vendas] for that customer passes the foreign key: with no items it
    answers 201. *)
Theorem x_post_clientes_depois_venda st b r st' :
  post_clientes st b = (r, st') -> crud_status r = 201 ->
  exists cl, crud_body r = BCliente cl /\ In cl (clientes st') /\
    status (fst (post_vendas st' (mkVendaReq (Some (cliente_id cl)) []))) = 201.
Proof.
  unfold post_clientes; intros H Hs.
  destruct (cliente_create st b) as [e|[cl st1]] eqn:E; inversion H; subst; [discriminate|].
  exists cl; unfold cliente_create in E.
  destruct (creq_nome b), (creq_email b), (creq_cpf b); try discriminate.
  destruct (_ || _); [discriminate|].
  inversion E; subst; clear E.
  split; [reflexivity|]; split; [simpl; apply in_or_app; right; left; reflexivity|].
  unfold post_vendas, venda_create; cbn [req_ClienteId req_itens fk_cliente_ok clientes].
  rewrite existsb_app; simpl; rewrite Z.eqb_refl, orb_true_r; reflexivity.
Qed.

Lemma NoDup_snoc {A : Type} (l : list A) x : NoDup l -> ~ In x l -> NoDup (l ++ [x]).
Proof.
  induction l as [|a l IH]; simpl; intros Hnd Hn.
  - constructor; [intros []|constructor].
  - inversion Hnd as [|? ? Ha Hl]; subst; constructor.
    + intros Hin; apply in_app_or in Hin as [Hin|[<-|[]]]; [contradiction|].
      apply Hn; left; reflexivity.
    + apply IH; [exact Hl|]; intros Hin; apply Hn; right; exact Hin.
Qed.

Lemma processa_itens_chaves vid items st acc :
  map produto_id (produtos (passo_store (processa_itens vid items st acc)))
    = map produto_id (produtos st) /\
  clientes (passo_store (processa_itens vid items st acc)) = clientes st.
Proof.
  revert st acc; induction items as [|it items IH]; intros st acc; simpl; [auto|].
  destruct (produto_findByPk (produtos st) (item_ProdutoId it)) as [p|]; simpl; [|auto].
  destruct (estoque p <? item_quantidade it); simpl; [auto|].
  destruct (IH (produto_update_estoque
                  (venda_addProduto st vid p (item_quantidade it) (preco p))
                  (produto_id p) (estoque p - item_quantidade it))
               (acc + preco p * item_quantidade it)) as [H1 H2].
  rewrite H1, H2; simpl; split; [|reflexivity].
  rewrite map_map; apply map_ext; intros q; destruct (produto_id q =? produto_id p); reflexivity.
Qed.

Lemma post_vendas_chaves st req :
  map produto_id (produtos (snd (post_vendas st req))) = map produto_id (produtos st) /\
  clientes (snd (post_vendas st req)) = clientes st.
Proof.
  unfold post_vendas, venda_create.
  destruct (fk_cliente_ok st (req_ClienteId req)); simpl; [|auto].
  match goal with |- context [processa_itens ?vid ?items ?s0 0] =>
    pose proof (processa_itens_chaves vid items s0 0) as [H1 H2];
    destruct (processa_itens vid items s0 0) end; simpl in *; auto.
Qed.

Lemma app_chaves_unicas st req : chaves_unicas st -> chaves_unicas (snd (app st req)).
Proof.
  intros (Hp & Hc & He); destruct req as [|b| |b| |b|]; simpl; try (repeat split; assumption).
  - unfold post_produtos, produto_create.
    destruct (preq_nome b), (preq_preco b); simpl; try (repeat split; assumption).
    destruct (existsb _ _) eqn:E; simpl; [repeat split; assumption|].
    repeat split; try assumption; simpl.
    rewrite map_app; apply NoDup_snoc; [exact Hp|apply existsb_produto_id; exact E].
  - unfold post_clientes, cliente_create.
    destruct (creq_nome b), (creq_email b), (creq_cpf b); simpl; try (repeat split; assumption).
    destruct (_ || _) eqn:E; simpl; [repeat split; assumption|].
    apply orb_false_iff in E as [E1 E2].
    repeat split; try assumption; simpl; rewrite map_app; apply NoDup_snoc; try assumption.
    + intros Hin; apply in_map_iff in Hin as (cl & Ecl & Hcl).
      assert (existsb (fun c => cliente_id c =? cliente_id cl) (clientes st) = true)
        by (apply existsb_exists; exists cl; split; [exact Hcl|apply Z.eqb_refl]).
      simpl in Ecl; rewrite Ecl in *; congruence.
    + intros Hin; apply in_map_iff in Hin as (cl & Ecl & Hcl).
      assert (existsb (fun c => String.eqb (email c) (email cl)) (clientes st) = true)
        by (apply existsb_exists; exists cl; split; [exact Hcl|apply String.eqb_refl]).
      simpl in Ecl; rewrite Ecl in *; congruence.
  - destruct (post_vendas_chaves st b) as [H1 H2].
    destruct (post_vendas st b) as [r st']; simpl in *.
    unfold chaves_unicas; rewrite H1, H2; auto.
Qed.

(** X11: every sequence of requests keeps the product keys, the customer
    keys and the customer emails pairwise distinct. *)
Theorem x_app_seq_chaves_unicas reqs st :
  chaves_unicas st -> chaves_unicas (app_seq st reqs).
Proof.
  revert st; induction reqs as [|req reqs IH]; intros st H; simpl; [exact H|].
  apply IH, app_chaves_unicas, H.
Qed.

Lemma addProduto_contador st vid p q pu N :
  vid < N -> Forall (fun l => VendaId l < N) (itens_venda st) ->
  Forall (fun l => VendaId l < N) (itens_venda (venda_addProduto st vid p q pu)).
Proof.
  intros Hv H; unfold venda_addProduto; simpl.
  destruct (existsb _ _).
  - apply Forall_forall; intros l Hl; apply in_map_iff in Hl as (r & <- & Hr).
    destruct (_ && _); simpl; [exact Hv|].
    rewrite Forall_forall in H; apply H, Hr.
  - apply Forall_app; split; [exact H|repeat constructor; exact Hv].
Qed.

Lemma processa_itens_contador vid items st acc N :
  vid < N -> Forall (fun l => VendaId l < N) (itens_venda st) ->
  Forall (fun l => VendaId l < N) (itens_venda (passo_store (processa_itens vid items st acc))).
Proof.
  intros Hv; revert st acc; induction items as [|it items IH]; intros st acc H; simpl; [exact H|].
  destruct (produto_findByPk (produtos st) (item_ProdutoId it)) as [p|]; simpl; [|exact H].
  destruct (estoque p <? item_quantidade it); simpl; [exact H|].
  apply IH; simpl; apply addProduto_contador; assumption.
Qed.

Lemma post_vendas_contador st req :
  contador_vendas_ok st -> contador_vendas_ok (snd (post_vendas st req)).
Proof.
  intros (Hnd & Hv & Hi); unfold post_vendas, venda_create.
  destruct (fk_cliente_ok st (req_ClienteId req)); simpl; [|repeat split; assumption].
  set (n := next_venda_id st).
  set (st0 := mkStore (clientes st) (produtos st) (vendas st ++ [mkVenda n (req_ClienteId req) 0])
                      (itens_venda st) (n + 1)).
  assert (H0 : contador_vendas_ok st0).
  { unfold contador_vendas_ok, st0; simpl; split; [|split].
    - rewrite map_app; apply NoDup_snoc; [exact Hnd|].
      intros Hin; apply in_map_iff in Hin as (v & Ev & Hv'); rewrite Forall_forall in Hv.
      specialize (Hv v Hv'); simpl in Ev; unfold n in *; lia.
    - apply Forall_app; split; [|repeat constructor; simpl; lia].
      eapply Forall_impl; [|exact Hv]; intros v Hl; unfold n in *; lia.
    - eapply Forall_impl; [|exact Hi]; intros l Hl; unfold n in *; lia. }
  destruct H0 as (Hnd0 & Hv0 & Hi0).
  pose proof (processa_itens_vendas n (req_itens req) st0 0) as [Ev En].
  pose proof (processa_itens_contador n (req_itens req) st0 0 (n + 1) ltac:(lia) Hi0) as Hi1.
  destruct (processa_itens n (req_itens req) st0 0) as [st1 acc|r1 st1];
    simpl in Ev, En, Hi1; unfold contador_vendas_ok; simpl.
  - assert (Em : map venda_id (map (fun v => if venda_id v =? n
                                  then mkVenda (venda_id v) (ClienteId v) acc else v) (vendas st1))
                 = map venda_id (vendas st1)).
    { rewrite map_map; apply map_ext; intros v; destruct (venda_id v =? n); reflexivity. }
    rewrite En; split; [rewrite Em, Ev; exact Hnd0|split; [|exact Hi1]].
    apply Forall_forall; intros v Hin.
    apply (in_map venda_id) in Hin; rewrite Em, Ev in Hin.
    apply in_map_iff in Hin as (w & Ew & Hw); rewrite Forall_forall in Hv0.
    specialize (Hv0 w Hw); simpl in Hv0; lia.
  - rewrite En, Ev; repeat split; assumption.
Qed.

Lemma app_contador st req : contador_vendas_ok st -> contador_vendas_ok (snd (app st req)).
Proof.
  intros H; destruct req as [|b| |b| |b|]; simpl; try exact H.
  - unfold post_produtos, produto_create.
    destruct (preq_nome b), (preq_preco b); simpl; try exact H.
    destruct (existsb _ _); exact H.
  - unfold post_clientes, cliente_create.
    destruct (creq_nome b), (creq_email b), (creq_cpf b); simpl; try exact H.
    destruct (_ || _); exact H.
  - pose proof (post_vendas_contador st b H) as H'.
    destruct (post_vendas st b); exact H'.
Qed.

(** X12: every sequence of requests keeps sale keys distinct and below the
    autoincrement counter of [Vendas], and every line item refers to a key
    below it; so each new sale starts with no line items. *)
Theorem x_app_seq_contador_vendas reqs st :
  contador_vendas_ok st -> contador_vendas_ok (app_seq st reqs).
Proof.
  revert st; induction reqs as [|req reqs IH]; intros st H; simpl; [exact H|].
  apply IH, app_contador, H.
Qed.

Lemma app_nonneg st req :
  estoque_req_ok req -> estoques_nao_negativos st -> estoques_nao_negativos (snd (app st req)).
Proof.
  intros Hr H; destruct req as [|b| |b| |b|]; simpl; try exact H.
  - unfold post_produtos, produto_create.
    destruct (preq_nome b), (preq_preco b); simpl; try exact H.
    destruct (existsb _ _); simpl; [exact H|].
    unfold estoques_nao_negativos; simpl; apply Forall_app; split; [exact H|].
    repeat constructor; simpl; simpl in Hr.
    destruct (preq_estoque b) as [n|]; simpl; [apply Hr; reflexivity|lia].
  - unfold post_clientes, cliente_create.
    destruct (creq_nome b), (creq_email b), (creq_cpf b); simpl; try exact H.
    destruct (_ || _); exact H.
  - pose proof (post_vendas_nonneg st b H) as H'.
    destruct (post_vendas st b); exact H'.
Qed.

(** X13: when no [POST /produtos] of a sequence of requests carries a
    negative [estoque], the sequence keeps every stock non-negative (sales
    check the stock before each decrement; new products start at 0 or the
    given stock). *)
Theorem x_app_seq_estoques reqs st :
  Forall estoque_req_ok reqs -> estoques_nao_negativos st ->
  estoques_nao_negativos (app_seq st reqs).
Proof.
  revert st; induction reqs as [|req reqs IH]; intros st Hr H; simpl; [exact H|].
  inversion Hr; subst; apply IH; [assumption|apply app_nonneg; assumption].
Qed.

(** ** Witnesses of the further properties *)


(** A second sale, of P1 again, after the sale [req_ok] was recorded. *)
Definition req_seg : VendaReq := mkVendaReq (Some 1) [mkItemReq 1 1].

Lemma x_post_vendas_outras_vendas_witness :
  venda_find (vendas st_ok) 1 = Some (mkVenda 1 (Some 1) 4000) /\
  filter (fun l => VendaId l =? 1) (itens_venda st_ok)
    = [mkItemVenda 1 1 2 1000; mkItemVenda 1 2 1 2000] /\
  (venda_find (vendas (snd (post_vendas st_ok req_seg))) 1 = venda_find (vendas st_ok) 1 /\
   filter (fun l => VendaId l =? 1) (itens_venda (snd (post_vendas st_ok req_seg)))
     = filter (fun l => VendaId l =? 1) (itens_venda st_ok) /\
   clientes (snd (post_vendas st_ok req_seg)) = clientes st_ok).
Proof.
  split; [vm_compute; reflexivity|]; split; [vm_compute; reflexivity|].
  apply (x_post_vendas_outras_vendas st_ok req_seg (fst (post_vendas st_ok req_seg))
           (snd (post_vendas st_ok req_seg)) 1).
  - apply surjective_pairing.
  - intros E; vm_compute in E; discriminate E.
Defined.

Lemma x_post_clientes_depois_venda_witness :
  exists cl, crud_body (fst (post_clientes st_ex req_cliente)) = BCliente cl /\
    In cl (clientes (snd (post_clientes st_ex req_cliente))) /\
    status (fst (post_vendas (snd (post_clientes st_ex req_cliente))
                             (mkVendaReq (Some (cliente_id cl)) []))) = 201.
Proof.
  apply (x_post_clientes_depois_venda st_ex req_cliente); [|vm_compute; reflexivity].
  vm_compute; reflexivity.
Defined.

Lemma x_app_seq_chaves_unicas_witness :
  chaves_unicas (app_seq st_ex [PostProdutos req_produto; PostClientes req_cliente;
                                PostVendas req_ok; GetVendas]).
Proof.
  apply x_app_seq_chaves_unicas.
  unfold chaves_unicas; simpl; repeat split; repeat constructor; simpl; try lia; intuition.
Defined.

Lemma x_app_seq_contador_vendas_witness :
  contador_vendas_ok (app_seq st_ex [PostVendas req_ok; PostVendas req_falha; GetVendas]).
Proof.
  apply x_app_seq_contador_vendas; unfold contador_vendas_ok; simpl; repeat constructor.
Defined.

Lemma x_app_seq_estoques_witness :
  estoques_nao_negativos (app_seq st_ex [PostProdutos req_produto; PostVendas req_ok]).
Proof.
  apply x_app_seq_estoques.
  - repeat constructor; simpl; intros n Hn; discriminate.
  - unfold estoques_nao_negativos; simpl; repeat constructor; simpl; lia.
Defined.
